(** * synapse_user_restrictions: permission decisions and the leave gate

    A shallow embedding of [synapse_user_restrictions/module.py]
    (class [UserRestrictionsModule]) and [synapse_user_restrictions/config.py]
    (class [RestrictionModule]), with the properties of their callbacks.

    Conventions of the embedding:
    - Python [str] is [string]; its characters are taken to be ASCII, which
      is what Matrix identifiers are made of.
    - A Python [dict] with string keys is a [gmap string _], a [set] of
      strings is a [gset string].
    - A Python function that may raise returns a [result]: [Ok v] for
      [return v] and [Raise e] for an exception [e] leaving the function.
    - [async def] callbacks are modelled by the value they resolve to;
      logging calls have no influence on results and are left out. *)

From stdpp Require Import base option list gmap strings.
From Stdlib Require Import Ascii String.

Local Open Scope string_scope.

(** ** Python values and exceptions *)

(** The dynamically typed values that reach the modules: configuration
    entries, event contents and room state. *)
#[warnings="-register-all"]
Inductive pyval : Type :=
  | PyNone
  | PyBool (b : bool)
  | PyInt (n : Z)
  | PyStr (s : string)
  | PyList (l : list pyval)
  | PyDict (d : gmap string pyval).

(** The exception classes that occur.  [SynapseError] carries the HTTP
    status, the message and the error code; [ConfigError] and [ValueError]
    carry their message.  [HostError] stands for any other subclass of
    [Exception] raised by the host, [BaseOnly] for the classes below
    [BaseException] that are not below [Exception] (interpreter exit,
    keyboard interrupt), which [except Exception] does not catch. *)
Inductive exn : Type :=
  | ValueError (msg : string)
  | IndexError
  | KeyError (key : string)
  | AttributeError
  | TypeError
  | ConfigError (msg : string)
  | SynapseError (code : Z) (msg : string) (errcode : string)
  | HostError (name : string)
  | BaseOnly (name : string).

(** [isinstance(e, Exception)]. *)
Definition is_Exception (e : exn) : bool :=
  match e with
  | BaseOnly _ => false
  | _ => true
  end.

Inductive result (A : Type) : Type :=
  | Ok (a : A)
  | Raise (e : exn).
Arguments Ok {A} a.
Arguments Raise {A} e.

(** Sequencing: an exception raised by the first computation leaves the
    function at once. *)
Definition bind {A B : Type} (m : result A) (k : A → result B) : result B :=
  match m with
  | Ok a => k a
  | Raise e => Raise e
  end.

Notation "'let!' x ':=' m 'in' k" := (bind m (λ x, k))
  (at level 10, x name, m at level 100, k at level 200,
   format "'[v' 'let!'  x  ':='  m  'in' '/' k ']'").

(** [try: body  except Exception: handler]. *)
Definition try_except {A : Type} (body : result A) (handler : exn -> result A)
  : result A :=
  match body with
  | Ok a => Ok a
  | Raise e => if is_Exception e then handler e else Raise e
  end.

(** ** Built-in operations on Python values *)

(** [isinstance(v, list)] and [isinstance(v, str)]. *)
Definition is_list (v : pyval) : bool :=
  match v with PyList _ => true | _ => false end.

Definition is_str (v : pyval) : bool :=
  match v with PyStr _ => true | _ => false end.

(** [v == s] for a string literal [s]. *)
Definition eq_str (v : pyval) (s : string) : bool :=
  match v with
  | PyStr t => bool_decide (t = s)
  | _ => false
  end.

(** [d.get(k)] on a dict: the entry, or [None]. *)
Definition dict_get (d : gmap string pyval) (k : string) : pyval :=
  default PyNone (d !! k).

(** [d.get(k, dflt)]. *)
Definition dict_get_default (d : gmap string pyval) (k : string) (dflt : pyval)
  : pyval :=
  default dflt (d !! k).

(** Truth value of an object, as [if v] and [v and ...] test it. *)
Definition truthy (v : pyval) : bool :=
  match v with
  | PyNone => false
  | PyBool b => b
  | PyInt n => negb (n =? 0)%Z
  | PyStr s => negb (bool_decide (s = EmptyString))
  | PyList l => match l with [] => false | _ => true end
  | PyDict d => negb (bool_decide (size d = 0))
  end.

(** [v[k]]: subscripting with a string key. *)
Definition getitem (v : pyval) (k : string) : result pyval :=
  match v with
  | PyDict d => match d !! k with
                | Some x => Ok x
                | None => Raise (KeyError k)
                end
  | _ => Raise TypeError
  end.

(** [v.get(k)]: only dicts have the method. *)
Definition get_method (v : pyval) (k : string) : result pyval :=
  match v with
  | PyDict d => Ok (dict_get d k)
  | _ => Raise AttributeError
  end.

(** ** Strings *)

(** [c.lower()] on an ASCII character. *)
Definition lower_ascii (c : ascii) : ascii :=
  let n := nat_of_ascii c in
  if (65 <=? n)%nat && (n <=? 90)%nat then ascii_of_nat (n + 32) else c.

(** [s.lower()]. *)
Fixpoint lower (s : string) : string :=
  match s with
  | EmptyString => EmptyString
  | String c t => String (lower_ascii c) (lower t)
  end.

(** [s.split(sep, 1)] for a one-character separator: cut at the first
    occurrence, or the whole string alone when there is none. *)
Fixpoint split1 (sep : ascii) (s : string) : list string :=
  match s with
  | EmptyString => [EmptyString]
  | String c t =>
      if bool_decide (c = sep) then [EmptyString; t]
      else match split1 sep t with
           | [] => [String c EmptyString]
           | h :: rest => String c h :: rest
           end
  end.

(** [sep in s] for a character. *)
Fixpoint contains (sep : ascii) (s : string) : bool :=
  match s with
  | EmptyString => false
  | String c t => bool_decide (c = sep) || contains sep t
  end.

(** [s.startswith(p)]. *)
Definition startswith (s p : string) : bool := String.prefix p s.

(** [repr(s)] of a string without quotes or backslashes in it. *)
Definition repr (s : string) : string := "'" ++ s ++ "'".

(** ** The rule engine: [module.py] *)

Module UserRestrictionsModule.

(** Modelled from the spec: the permission identifiers that [module.py]
    imports from its configuration module, and the catalog
    [ALL_UNDERSTOOD_PERMISSIONS] of the six of them. *)
Definition CREATE_ROOM : string := "create_room".
Definition INVITE : string := "invite".
Definition RECEIVE_INVITES : string := "receive_invites".
Definition RECEIVE_ALL_INVITES : string := "receive_all_invites".
Definition INVITE_ALL : string := "invite_all".
Definition JOIN_ROOM : string := "join_room".

Definition ALL_UNDERSTOOD_PERMISSIONS : gset string :=
  {[ CREATE_ROOM; INVITE; RECEIVE_INVITES; RECEIVE_ALL_INVITES;
     INVITE_ALL; JOIN_ROOM ]}.

(** Modelled from the spec: the imported enumeration [RuleResult], a
    tri-state. *)
Inductive RuleResult : Type := Allow | Deny | NoDecision.

(** Modelled from the spec: an imported rule is a pure decision unit, used
    here only through [rule.apply(user_id, permission)]. *)
Record Rule : Type := { apply : string → string → RuleResult }.

(** Modelled from the spec: the imported [UserRestrictionsModuleConfig],
    of which the module reads [rules], [default_deny] and
    [local_homeservers]. *)
Record UserRestrictionsModuleConfig : Type := {
  rules : list Rule;
  default_deny : gset string;
  local_homeservers : gset string
}.

(** The host's [ModuleApi], as far as the two modules call it: [is_mine]
    tells whether a user is local, [get_room_state] returns the state map
    of a room, from [(event type, state key)] to the event, or fails. *)
Record ModuleApi : Type := {
  is_mine : string → bool;
  get_room_state : string → result (gmap (string * string) pyval)
}.

(** [user_id.split(":", 1)[1].lower()]; indexing a one-element list at 1
    raises [IndexError]. *)
Definition _get_domain (user_id : string) : result string :=
  match split1 ":" user_id !! 1%nat with
  | Some d => Ok (lower d)
  | None => Raise IndexError
  end.

(** The [for rule in self._config.rules] loop of [_apply_rules]:
    [Some b] when the loop returns [b], [None] when it runs to its end. *)
Fixpoint for_rules (rs : list Rule) (user_id permission : string)
  : option bool :=
  match rs with
  | [] => None
  | rule :: rest =>
      match apply rule user_id permission with
      | Allow => Some true
      | Deny => Some false
      | NoDecision => for_rules rest user_id permission
      end
  end.

Definition _apply_rules (config : UserRestrictionsModuleConfig)
    (user_id permission : string) : result bool :=
  if bool_decide (permission ∉ ALL_UNDERSTOOD_PERMISSIONS) then
    Raise (ValueError ("Permission not recognised: " ++ repr permission))
  else
    match for_rules (rules config) user_id permission with
    | Some b => Ok b
    | None =>
        if bool_decide (permission ∈ default_deny config) then Ok false
        else Ok true
    end.

Definition callback_user_may_create_room
    (config : UserRestrictionsModuleConfig) (user : string) : result bool :=
  _apply_rules config user CREATE_ROOM.

Definition callback_user_may_invite (config : UserRestrictionsModuleConfig)
    (inviter invitee room_id : string) : result bool :=
  let! may_inv := _apply_rules config inviter INVITE in
  if negb may_inv then Ok false else
  let! inv_all := _apply_rules config inviter INVITE_ALL in
  if inv_all then Ok true else
  let! recv_all := _apply_rules config invitee RECEIVE_ALL_INVITES in
  if recv_all then Ok true else
  let! recv := _apply_rules config invitee RECEIVE_INVITES in
  if recv then
    let! inviter_domain := _get_domain inviter in
    Ok (bool_decide (inviter_domain ∈ local_homeservers config))
  else Ok false.

(** The [try] block of [callback_user_may_join_room]: [Some true] when it
    returns from the callback, [None] when control leaves it at its end. *)
Definition join_state_check (api : ModuleApi) (user room_id : string)
  : result (option bool) :=
  let! state := get_room_state api room_id in
  let member_event := default PyNone (state !! ("m.room.member", user)) in
  if truthy member_event then
    let! content := getitem member_event "content" in
    let! membership := get_method content "membership" in
    if eq_str membership "join" then Ok (Some true) else Ok None
  else Ok None.

Definition callback_user_may_join_room (api : ModuleApi)
    (config : UserRestrictionsModuleConfig)
    (user room_id : string) (is_invited : bool) : result bool :=
  let! returned :=
    try_except (join_state_check api user room_id) (λ _, Ok None) in
  match returned with
  | Some b => Ok b
  | None =>
      let! has_join_room := _apply_rules config user JOIN_ROOM in
      if has_join_room || is_invited then Ok true else Ok false
  end.

(** [isinstance(e, (TypeError, ValueError))], the classes that
    [parse_config] catches; the other classes of [exn] are taken to be
    subclasses of neither. *)
Definition is_TypeError_or_ValueError (e : exn) : bool :=
  match e with
  | TypeError | ValueError _ => true
  | _ => false
  end.

(** [parse_config].  [UserRestrictionsModuleConfig.from_config] is imported
    from code that is not part of these files and [str(e)] is the
    exception's own text: both are parameters, [from_config] and [str]. *)
Definition parse_config
    (from_config : gmap string pyval → result UserRestrictionsModuleConfig)
    (str : exn → string) (config : gmap string pyval)
  : result UserRestrictionsModuleConfig :=
  match from_config config with
  | Ok parsed => Ok parsed
  | Raise e =>
      if is_TypeError_or_ValueError e then
        Raise (ConfigError
          ("Failed to parse user restrictions module config: " ++ str e))
      else Raise e
  end.

End UserRestrictionsModule.

(** ** The leave gate: [config.py] *)

Module RestrictionModule.

(** An event, as far as the gate reads it. *)
Record EventBase : Type := {
  type : string;
  content : gmap string pyval;
  room_id : string;
  sender : string;
  state_key : string
}.

(** The dict that [parse_config] returns and [__init__] reads. *)
Record Config : Type := {
  restricted_rooms : gset string;
  leave_error_message : string
}.

Definition FORBIDDEN : string := "M_FORBIDDEN".

Definition DEFAULT_LEAVE_ERROR_MESSAGE : string :=
  "You are not allowed to leave this room.".

(** [isinstance(room, str) and room.startswith("!")]. *)
Definition room_ok (room : pyval) : bool :=
  match room with
  | PyStr s => startswith s "!"
  | _ => false
  end.

(** The [for room in restricted_rooms] loop of [parse_config]. *)
Fixpoint for_rooms (l : list pyval) : result unit :=
  match l with
  | [] => Ok ()
  | room :: rest =>
      if negb (room_ok room) then
        Raise (ConfigError
          "Each entry in restricted_rooms must be a valid room ID starting with '!'")
      else for_rooms rest
  end.

(** [set(l)] for a list of strings. *)
Definition str_set (l : list pyval) : gset string :=
  list_to_set (omap (λ v, match v with PyStr s => Some s | _ => None end) l).

Definition parse_config (config : gmap string pyval) : result Config :=
  match dict_get_default config "restricted_rooms" (PyList []) with
  | PyList rooms =>
      let! _ := for_rooms rooms in
      match dict_get_default config "leave_error_message"
              (PyStr DEFAULT_LEAVE_ERROR_MESSAGE) with
      | PyStr msg =>
          Ok {| restricted_rooms := str_set rooms;
                leave_error_message := msg |}
      | _ => Raise (ConfigError "leave_error_message must be a string")
      end
  | _ => Raise (ConfigError "restricted_rooms must be a list of strings")
  end.

Definition check_event_allowed (api : UserRestrictionsModule.ModuleApi)
    (config : Config) (event : EventBase)
    (state_events : gmap (string * string) pyval) : result EventBase :=
  if negb (bool_decide (type event = "m.room.member")) then Ok event else
  let membership := dict_get (content event) "membership" in
  if negb (eq_str membership "leave") then Ok event else
  if bool_decide (room_id event ∉ restricted_rooms config) then Ok event else
  if bool_decide (sender event = state_key event)
     && UserRestrictionsModule.is_mine api (sender event) then
    Raise (SynapseError 403 (leave_error_message config) FORBIDDEN)
  else Ok event.

Definition check_can_deactivate_user (user_id : string) (by_admin : bool)
  : result bool :=
  Ok by_admin.

End RestrictionModule.

(** * The statements' vocabulary

    Definitions that follow the wording of the design document, to be
    compared with the embedding above. *)

Import UserRestrictionsModule.
Import RestrictionModule.

(** What the loop leaves undecided is decided by [default_deny]. *)
Definition fallback (config : UserRestrictionsModuleConfig)
    (permission : string) : bool :=
  negb (bool_decide (permission ∈ default_deny config)).

(** "The query is true" and "the query is false", of a call of the rule
    engine. *)
Definition is_true (r : result bool) : bool :=
  match r with Ok true => true | _ => false end.

Definition is_false (r : result bool) : bool :=
  match r with Ok false => true | _ => false end.

(** Step 4 of the invite decision: the inviter's domain against
    [local_homeservers]. *)
Definition local_homeserver_check (config : UserRestrictionsModuleConfig)
    (inviter : string) : result bool :=
  let! inviter_domain := _get_domain inviter in
  Ok (bool_decide (inviter_domain ∈ local_homeservers config)).

(** The invite decision as the design describes it: four steps, each a
    query of the rule engine, the first that applies giving the verdict. *)
Definition invite_decision_tree (config : UserRestrictionsModuleConfig)
    (inviter invitee : string) : result bool :=
  if is_false (_apply_rules config inviter INVITE) then Ok false
  else if is_true (_apply_rules config inviter INVITE_ALL) then Ok true
  else if is_true (_apply_rules config invitee RECEIVE_ALL_INVITES)
  then Ok true
  else if is_true (_apply_rules config invitee RECEIVE_INVITES)
  then local_homeserver_check config inviter
  else Ok false.

(** The events that the gate rejects: a local user's own leave from a
    restricted room. *)
Definition blocked_leave (api : ModuleApi) (config : Config)
    (event : EventBase) : Prop :=
  type event = "m.room.member"
  ∧ content event !! "membership" = Some (PyStr "leave")
  ∧ room_id event ∈ restricted_rooms config
  ∧ sender event = state_key event
  ∧ is_mine api (sender event) = true.

(** A well-formed entry of [restricted_rooms]: a string that starts with
    an exclamation mark. *)
Definition room_id_string (room : pyval) : Prop :=
  ∃ rest, room = PyStr ("!" ++ rest).

(** The configurations that are turned down: [restricted_rooms] present
    and not a list, an entry of it that is not a room identifier, or
    [leave_error_message] present and not a string. *)
Definition config_rejected (config : gmap string pyval) : Prop :=
  (∃ v, config !! "restricted_rooms" = Some v ∧ is_list v = false)
  ∨ (∃ rooms room,
       config !! "restricted_rooms" = Some (PyList rooms)
       ∧ room ∈ rooms ∧ ¬ room_id_string room)
  ∨ (∃ v, config !! "leave_error_message" = Some v ∧ is_str v = false).

(** The entries of a validated [restricted_rooms], and the configured
    message. *)
Definition configured_rooms (config : gmap string pyval) : list pyval :=
  match config !! "restricted_rooms" with
  | Some (PyList rooms) => rooms
  | _ => []
  end.

Definition configured_message (config : gmap string pyval) : string :=
  match config !! "leave_error_message" with
  | Some (PyStr msg) => msg
  | _ => "You are not allowed to leave this room."
  end.

(** The two checks of [parse_config], as booleans. *)
Definition rooms_accepted (config : gmap string pyval) : bool :=
  match config !! "restricted_rooms" with
  | None => true
  | Some (PyList rooms) => forallb room_ok rooms
  | Some _ => false
  end.

Definition message_accepted (config : gmap string pyval) : bool :=
  match config !! "leave_error_message" with
  | None => true
  | Some v => is_str v
  end.

(** [user] is joined according to [state]: the entry of
    [("m.room.member", user)] is a dict whose ["content"] is a dict with
    membership ["join"]. *)
Definition joined_in (state : gmap (string * string) pyval) (user : string)
  : bool :=
  match state !! ("m.room.member", user) with
  | Some (PyDict member_event) =>
      match member_event !! "content" with
      | Some (PyDict event_content) =>
          match event_content !! "membership" with
          | Some (PyStr membership) => bool_decide (membership = "join")
          | _ => false
          end
      | _ => false
      end
  | _ => false
  end.

(** [config] with the homeserver [h] taken out of [local_homeservers]. *)
Definition without_homeserver (config : UserRestrictionsModuleConfig)
    (h : string) : UserRestrictionsModuleConfig :=
  {| rules := rules config;
     default_deny := default_deny config;
     local_homeservers := local_homeservers config ∖ {[ h ]} |}.

(** The first rule with a decision for [(user_id, permission)] is [rule],
    at the end of the undecided prefix [pre]. *)
Definition first_decision (rs : list Rule) (user_id permission : string)
    (decision : RuleResult) : Prop :=
  ∃ pre rule post,
    rs = (pre ++ rule :: post)%list
    ∧ Forall (λ r, apply r user_id permission = NoDecision) pre
    ∧ apply rule user_id permission = decision.

(** The condition under which the leave gate rejects, as a boolean. *)
Definition leave_blocked (api : ModuleApi) (config : Config)
    (event : EventBase) : bool :=
  bool_decide (type event = "m.room.member")
  && eq_str (dict_get (content event) "membership") "leave"
  && bool_decide (room_id event ∈ restricted_rooms config)
  && bool_decide (sender event = state_key event)
  && is_mine api (sender event).

(** * Sample inputs

    Concrete rules, configurations, host interfaces and events at which
    the theorems below are instantiated. *)

Definition no_decision : Rule := {| apply := λ _ _, NoDecision |}.

Definition deny_all : Rule := {| apply := λ _ _, Deny |}.

Definition allow_user (X : string) : Rule :=
  {| apply := λ user_id _,
       if bool_decide (user_id = X) then Allow else NoDecision |}.

(** An exception for one user in front of a general denial. *)
Definition ordered_config : UserRestrictionsModuleConfig :=
  {| rules := [no_decision; allow_user "@x:hs"; deny_all];
     default_deny := {[ "invite" ]};
     local_homeservers := ∅ |}.

(** The same two rules the other way round. *)
Definition shadowed_config : UserRestrictionsModuleConfig :=
  {| rules := [deny_all; allow_user "@x:hs"];
     default_deny := ∅;
     local_homeservers := ∅ |}.

(** No rules: everybody may invite and receive invites, nobody may
    [invite_all] or [receive_all_invites]; [x] is the local homeserver. *)
Definition local_only_config : UserRestrictionsModuleConfig :=
  {| rules := [];
     default_deny := {[ "invite_all"; "receive_all_invites"; "join_room" ]};
     local_homeservers := {[ "x" ]} |}.

Definition home_is_mine (user_id : string) : bool :=
  match _get_domain user_id with
  | Ok domain => bool_decide (domain = "home")
  | Raise _ => false
  end.

(** A host whose state lookup fails. *)
Definition failing_api : ModuleApi :=
  {| is_mine := home_is_mine;
     get_room_state := λ _, Raise (HostError "state unavailable") |}.

(** A host in whose rooms [@b:y] is joined. *)
Definition joined_state : gmap (string * string) pyval :=
  {[ ("m.room.member", "@b:y") :=
       PyDict {[ "content" := PyDict {[ "membership" := PyStr "join" ]} ]} ]}.

Definition joined_api : ModuleApi :=
  {| is_mine := home_is_mine; get_room_state := λ _, Ok joined_state |}.

(** A host whose rooms have no state. *)
Definition empty_api : ModuleApi :=
  {| is_mine := home_is_mine; get_room_state := λ _, Ok ∅ |}.

Definition gate_config : Config :=
  {| restricted_rooms := {[ "!restricted" ]};
     leave_error_message := "You are not allowed to leave this room." |}.

Definition self_leave : EventBase :=
  {| type := "m.room.member";
     content := {[ "membership" := PyStr "leave" ]};
     room_id := "!restricted";
     sender := "@local:home";
     state_key := "@local:home" |}.

Definition admin_kick : EventBase :=
  {| type := "m.room.member";
     content := {[ "membership" := PyStr "leave" ]};
     room_id := "!restricted";
     sender := "@admin:home";
     state_key := "@local:home" |}.

Definition good_gate_config : gmap string pyval :=
  {[ "restricted_rooms" := PyList [PyStr "!a"; PyStr "!b"] ]}.

Definition bad_gate_config : gmap string pyval :=
  {[ "restricted_rooms" := PyList [PyStr "!a"; PyStr "b"] ]}.

Definition allow_all : Rule := {| apply := λ _ _, Allow |}.

(** [local_only_config] with a homeserver entry that is not lowercase. *)
Definition mixed_case_config : UserRestrictionsModuleConfig :=
  {| rules := [];
     default_deny := {[ "invite_all"; "receive_all_invites"; "join_room" ]};
     local_homeservers := {[ "x"; "Example.org" ]} |}.

Definition open_config : UserRestrictionsModuleConfig :=
  {| rules := [allow_all; deny_all];
     default_deny := {[ "create_room" ]};
     local_homeservers := ∅ |}.

(** A state whose member entry of [@b:y] is not an event. *)
Definition malformed_state : gmap (string * string) pyval :=
  {[ ("m.room.member", "@b:y") := PyStr "join" ]}.

Definition malformed_api : ModuleApi :=
  {| is_mine := home_is_mine; get_room_state := λ _, Ok malformed_state |}.

Definition misspelt_gate_config : gmap string pyval :=
  {[ "restricted_room" := PyList [PyStr "!a"] ]}.

(** * Properties *)

(** ** The permission catalog and the rule loop *)

(** The catalog is closed: exactly the six identifiers. *)
Lemma catalog_closed (permission : string) :
  permission ∈ ALL_UNDERSTOOD_PERMISSIONS ↔
  permission = "create_room" ∨ permission = "invite"
  ∨ permission = "receive_invites" ∨ permission = "receive_all_invites"
  ∨ permission = "invite_all" ∨ permission = "join_room".
Proof.
  unfold ALL_UNDERSTOOD_PERMISSIONS, CREATE_ROOM, INVITE, RECEIVE_INVITES,
    RECEIVE_ALL_INVITES, INVITE_ALL, JOIN_ROOM.
  rewrite !elem_of_union, !elem_of_singleton. tauto.
Qed.

Lemma apply_rules_recognised config user_id permission :
  permission ∈ ALL_UNDERSTOOD_PERMISSIONS →
  _apply_rules config user_id permission =
    Ok (default (fallback config permission)
          (for_rules (rules config) user_id permission)).
Proof.
  intros Hin. unfold _apply_rules, fallback.
  rewrite bool_decide_eq_false_2 by (intros Hn; exact (Hn Hin)).
  destruct (for_rules _ _ _); simpl; [done|].
  by case_bool_decide.
Qed.

Lemma apply_rules_unrecognised config user_id permission :
  permission ∉ ALL_UNDERSTOOD_PERMISSIONS →
  _apply_rules config user_id permission =
    Raise (ValueError ("Permission not recognised: " ++ repr permission)).
Proof.
  intros Hn. unfold _apply_rules. by rewrite bool_decide_eq_true_2.
Qed.

(** Rules without a decision are passed over. *)
Lemma for_rules_skip pre rs user_id permission :
  Forall (λ r, apply r user_id permission = NoDecision) pre →
  for_rules (pre ++ rs) user_id permission = for_rules rs user_id permission.
Proof.
  induction 1 as [|r pre Hr _ IH]; simpl; [done|].
  by rewrite Hr.
Qed.

Lemma for_rules_undecided rs user_id permission :
  Forall (λ r, apply r user_id permission = NoDecision) rs →
  for_rules rs user_id permission = None.
Proof.
  intros H. rewrite <-(app_nil_r rs). by rewrite for_rules_skip.
Qed.

(** The six constants of the callbacks are in the catalog, so the calls
    made by the callbacks return. *)
Lemma constants_recognised :
  CREATE_ROOM ∈ ALL_UNDERSTOOD_PERMISSIONS
  ∧ INVITE ∈ ALL_UNDERSTOOD_PERMISSIONS
  ∧ RECEIVE_INVITES ∈ ALL_UNDERSTOOD_PERMISSIONS
  ∧ RECEIVE_ALL_INVITES ∈ ALL_UNDERSTOOD_PERMISSIONS
  ∧ INVITE_ALL ∈ ALL_UNDERSTOOD_PERMISSIONS
  ∧ JOIN_ROOM ∈ ALL_UNDERSTOOD_PERMISSIONS.
Proof. unfold ALL_UNDERSTOOD_PERMISSIONS. repeat split; set_solver. Qed.

(** A query with one of the callbacks' constants returns a verdict. *)
Ltac query_verdict config user permission b Hb :=
  let Hin := fresh "Hin" in
  assert (Hin : permission ∈ ALL_UNDERSTOOD_PERMISSIONS)
    by (pose proof constants_recognised; tauto);
  pose proof (apply_rules_recognised config user permission Hin) as Hb;
  set (b := default _ _) in Hb; clearbody b; clear Hin.


(** C1. [_apply_rules(user_id, permission)] raises (a [ValueError], the
    unrecognised-permission failure) when [permission] is outside the
    catalog.  For a permission of the catalog it scans the rules in order:
    it returns [True] when the first rule with a decision allows, [False]
    when that rule denies, and when no rule decides (so for every user when
    there are no rules) it returns [False] if and only if the permission is
    in [default_deny], and [True] otherwise. *)
Theorem apply_rules_spec (config : UserRestrictionsModuleConfig)
    (user_id permission : string) :
  (permission ∉ ALL_UNDERSTOOD_PERMISSIONS →
     ∃ msg, _apply_rules config user_id permission = Raise (ValueError msg))
  ∧ (permission ∈ ALL_UNDERSTOOD_PERMISSIONS →
     (∀ pre rule post,
        rules config = (pre ++ rule :: post)%list →
        Forall (λ r, apply r user_id permission = NoDecision) pre →
        (apply rule user_id permission = Allow →
           _apply_rules config user_id permission = Ok true)
        ∧ (apply rule user_id permission = Deny →
           _apply_rules config user_id permission = Ok false))
     ∧ (Forall (λ r, apply r user_id permission = NoDecision) (rules config) →
        (_apply_rules config user_id permission = Ok false
           ↔ permission ∈ default_deny config)
        ∧ (_apply_rules config user_id permission = Ok true
           ↔ permission ∉ default_deny config))
     ∧ (rules config = [] →
        (_apply_rules config user_id permission = Ok false
           ↔ permission ∈ default_deny config)
        ∧ (_apply_rules config user_id permission = Ok true
           ↔ permission ∉ default_deny config))).
Proof.
  split.
  { intros Hn. eexists. by apply apply_rules_unrecognised. }
  intros Hin.
  assert (Hund : for_rules (rules config) user_id permission = None →
    (_apply_rules config user_id permission = Ok false
       ↔ permission ∈ default_deny config)
    ∧ (_apply_rules config user_id permission = Ok true
       ↔ permission ∉ default_deny config)).
  { intros Hnone. rewrite (apply_rules_recognised _ _ _ Hin), Hnone.
    simpl. unfold fallback.
    case_bool_decide; simpl; split; split; intros; try done;
      congruence. }
  split; [|split].
  - intros pre rule post Hrules Hpre.
    rewrite (apply_rules_recognised _ _ _ Hin), Hrules,
      (for_rules_skip _ _ _ _ Hpre).
    simpl. split; intros ->; done.
  - intros Hall. apply Hund. by apply for_rules_undecided.
  - intros Hnil. apply Hund. by rewrite Hnil.
Qed.

(** C2. First match wins: when the first rule denies every user and every
    permission, a second rule that allows user [X] is never reached, and
    [_apply_rules(X, p)] is [False] for every permission of the catalog. *)
Theorem first_match_wins (config : UserRestrictionsModuleConfig)
    (deny_all allow_X : Rule) (rest : list Rule) (X permission : string) :
  rules config = deny_all :: allow_X :: rest →
  (∀ u q, apply deny_all u q = Deny) →
  (∀ q, apply allow_X X q = Allow) →
  permission ∈ ALL_UNDERSTOOD_PERMISSIONS →
  _apply_rules config X permission = Ok false.
Proof.
  intros Hrules Hdeny _ Hin.
  rewrite (apply_rules_recognised _ _ _ Hin), Hrules.
  simpl. by rewrite Hdeny.
Qed.

(** ** Domains of user identifiers *)

Lemma split1_absent sep s :
  contains sep s = false → split1 sep s = [s].
Proof.
  induction s as [|c t IH]; simpl; [done|].
  case_bool_decide; simpl; [done|].
  intros Ht. by rewrite (IH Ht).
Qed.

Lemma split1_first sep l d :
  contains sep l = false → split1 sep (l ++ String sep d) = [l; d].
Proof.
  induction l as [|c t IH]; simpl.
  - intros _. by rewrite bool_decide_eq_true_2.
  - case_bool_decide; simpl; [done|].
    intros Ht. by rewrite (IH Ht).
Qed.

Lemma contains_cut sep s :
  contains sep s = true →
  ∃ l d, s = l ++ String sep d ∧ contains sep l = false.
Proof.
  induction s as [|c t IH]; simpl; [done|].
  case_bool_decide as Hc; simpl.
  - intros _. exists EmptyString, t. by rewrite Hc.
  - intros Ht. destruct (IH Ht) as (l & d & -> & Hl).
    exists (String c l), d. simpl.
    by rewrite bool_decide_eq_false_2.
Qed.

Lemma get_domain_present localpart domain :
  contains ":" localpart = false →
  _get_domain (localpart ++ ":" ++ domain) = Ok (lower domain).
Proof.
  intros Hl. unfold _get_domain.
  change (":" ++ domain) with (String ":" domain).
  by rewrite (split1_first _ _ _ Hl).
Qed.

Lemma get_domain_absent user_id :
  contains ":" user_id = false → _get_domain user_id = Raise IndexError.
Proof.
  intros Hs. unfold _get_domain. by rewrite (split1_absent _ _ Hs).
Qed.

(** The cut at the first colon is unique. *)
Lemma first_colon_unique l1 d1 l2 d2 :
  contains ":" l1 = false → contains ":" l2 = false →
  l1 ++ ":" ++ d1 = l2 ++ ":" ++ d2 → l1 = l2 ∧ d1 = d2.
Proof.
  intros H1 H2 Heq.
  assert (Hs : split1 ":" (l1 ++ String ":" d1)
               = split1 ":" (l2 ++ String ":" d2)).
  { change (String ":" d1) with (":" ++ d1).
    change (String ":" d2) with (":" ++ d2). by rewrite Heq. }
  rewrite (split1_first _ _ _ H1), (split1_first _ _ _ H2) in Hs.
  by inversion Hs.
Qed.

(** ** Invitations *)

(** C3. [callback_user_may_invite(inviter, invitee, room_id)] is the
    four-step decision tree, and [room_id] has no part in it: any two room
    identifiers give the same result. *)
Theorem may_invite_tree (config : UserRestrictionsModuleConfig)
    (inviter invitee : string) :
  (∀ room_id,
     callback_user_may_invite config inviter invitee room_id
     = invite_decision_tree config inviter invitee)
  ∧ (∀ r1 r2,
     callback_user_may_invite config inviter invitee r1
     = callback_user_may_invite config inviter invitee r2).
Proof.
  split; [|done].
  intros room_id.
  unfold callback_user_may_invite, invite_decision_tree,
    local_homeserver_check.
  query_verdict config inviter INVITE b1 H1.
  query_verdict config inviter INVITE_ALL b2 H2.
  query_verdict config invitee RECEIVE_ALL_INVITES b3 H3.
  query_verdict config invitee RECEIVE_INVITES b4 H4.
  rewrite H1, H2, H3, H4.
  by destruct b1, b2, b3, b4.
Qed.

(** C4. At step 4 (the inviter has [invite] but not [invite_all], the
    invitee has [receive_invites] but not [receive_all_invites]) the
    verdict is the membership of the lowercased part of the inviter's
    identifier after its first colon in [local_homeservers]; with
    [local_homeservers = {"x"}] an inviter at domain [x] is allowed and one
    at domain [z] is denied. *)
Theorem may_invite_step4 (config : UserRestrictionsModuleConfig)
    (inviter invitee room_id : string) :
  _apply_rules config inviter INVITE = Ok true →
  _apply_rules config inviter INVITE_ALL = Ok false →
  _apply_rules config invitee RECEIVE_ALL_INVITES = Ok false →
  _apply_rules config invitee RECEIVE_INVITES = Ok true →
  (∀ localpart domain,
     inviter = localpart ++ ":" ++ domain →
     contains ":" localpart = false →
     callback_user_may_invite config inviter invitee room_id
     = Ok (bool_decide (lower domain ∈ local_homeservers config)))
  ∧ (callback_user_may_invite config inviter invitee room_id = Ok true
     ↔ ∃ localpart domain,
         inviter = localpart ++ ":" ++ domain
         ∧ contains ":" localpart = false
         ∧ lower domain ∈ local_homeservers config)
  ∧ (local_homeservers config = {[ "x" ]} →
     ∀ localpart,
       contains ":" localpart = false →
       (inviter = localpart ++ ":x" →
          callback_user_may_invite config inviter invitee room_id = Ok true)
       ∧ (inviter = localpart ++ ":z" →
          callback_user_may_invite config inviter invitee room_id
          = Ok false)).
Proof.
  intros H1 H2 H3 H4.
  assert (Hstep : callback_user_may_invite config inviter invitee room_id
                  = local_homeserver_check config inviter).
  { unfold callback_user_may_invite. by rewrite H1, H2, H3, H4. }
  assert (Hcut : ∀ localpart domain,
    inviter = localpart ++ ":" ++ domain →
    contains ":" localpart = false →
    callback_user_may_invite config inviter invitee room_id
    = Ok (bool_decide (lower domain ∈ local_homeservers config))).
  { intros l d -> Hl. rewrite Hstep. unfold local_homeserver_check.
    by rewrite (get_domain_present _ _ Hl). }
  split; [exact Hcut|split].
  - split.
    + intros Htrue. destruct (contains ":" inviter) eqn:Hc.
      * destruct (contains_cut _ _ Hc) as (l & d & Heq & Hl).
        exists l, d. split; [exact Heq|split; [exact Hl|]].
        rewrite (Hcut l d Heq Hl) in Htrue.
        injection Htrue as Htrue. by apply bool_decide_eq_true in Htrue.
      * rewrite Hstep in Htrue. unfold local_homeserver_check in Htrue.
        by rewrite (get_domain_absent _ Hc) in Htrue.
    + intros (l & d & Heq & Hl & Hd).
      rewrite (Hcut l d Heq Hl). by rewrite bool_decide_eq_true_2.
  - intros Hx l Hl. split; intros Heq.
    + rewrite (Hcut l "x" Heq Hl), Hx. by rewrite bool_decide_eq_true_2.
    + rewrite (Hcut l "z" Heq Hl), Hx.
      rewrite bool_decide_eq_false_2; [done|].
      simpl. rewrite elem_of_singleton. discriminate.
Qed.

(** C10. [callback_user_may_invite] returns a verdict on every path but
    one: at step 4, an inviter identifier without a colon makes the domain
    extraction raise [IndexError], which nothing catches.  An inviter
    identifier with a colon always gets a verdict, and [IndexError] at
    step 4 is the only way for the callback to raise. *)
Theorem may_invite_total_iff_colon (config : UserRestrictionsModuleConfig)
    (inviter invitee room_id : string) :
  (_apply_rules config inviter INVITE = Ok true →
   _apply_rules config inviter INVITE_ALL = Ok false →
   _apply_rules config invitee RECEIVE_ALL_INVITES = Ok false →
   _apply_rules config invitee RECEIVE_INVITES = Ok true →
   contains ":" inviter = false →
   callback_user_may_invite config inviter invitee room_id
   = Raise IndexError)
  ∧ (contains ":" inviter = true →
     ∃ verdict,
       callback_user_may_invite config inviter invitee room_id = Ok verdict)
  ∧ (∀ e,
     callback_user_may_invite config inviter invitee room_id = Raise e →
     e = IndexError ∧ contains ":" inviter = false
     ∧ _apply_rules config inviter INVITE = Ok true
     ∧ _apply_rules config inviter INVITE_ALL = Ok false
     ∧ _apply_rules config invitee RECEIVE_ALL_INVITES = Ok false
     ∧ _apply_rules config invitee RECEIVE_INVITES = Ok true).
Proof.
  split; [|split].
  - intros H1 H2 H3 H4 Hc. unfold callback_user_may_invite.
    rewrite H1, H2, H3, H4. simpl. by rewrite (get_domain_absent _ Hc).
  - intros Hc. destruct (contains_cut _ _ Hc) as (l & d & -> & Hl).
    unfold callback_user_may_invite.
    query_verdict config (l ++ String ":" d) INVITE b1 H1.
    query_verdict config (l ++ String ":" d) INVITE_ALL b2 H2.
    query_verdict config invitee RECEIVE_ALL_INVITES b3 H3.
    query_verdict config invitee RECEIVE_INVITES b4 H4.
    rewrite H1, H2, H3, H4.
    change (String ":" d) with (":" ++ d).
    destruct b1, b2, b3, b4; simpl; try (by eexists).
    rewrite (get_domain_present _ _ Hl). by eexists.
  - intros e. unfold callback_user_may_invite.
    query_verdict config inviter INVITE b1 H1.
    query_verdict config inviter INVITE_ALL b2 H2.
    query_verdict config invitee RECEIVE_ALL_INVITES b3 H3.
    query_verdict config invitee RECEIVE_INVITES b4 H4.
    rewrite H1, H2, H3, H4.
    destruct b1, b2, b3, b4; simpl; try discriminate.
    destruct (contains ":" inviter) eqn:Hc.
    + destruct (contains_cut _ _ Hc) as (l & d & -> & Hl).
      change (String ":" d) with (":" ++ d).
      rewrite (get_domain_present _ _ Hl). discriminate.
    + rewrite (get_domain_absent _ Hc). simpl. intros [= <-]. done.
Qed.

(** ** Joining a room *)

Lemma truthy_dict_entry (d : gmap string pyval) (k : string) (v : pyval) :
  d !! k = Some v → truthy (PyDict d) = true.
Proof.
  intros Hk. simpl. rewrite bool_decide_eq_false_2; [done|].
  intros Hsize. apply map_size_empty_iff in Hsize. by rewrite Hsize in Hk.
Qed.

(** The rule-only verdict that the callback falls back to. *)
Lemma join_fallback api config user room_id is_invited :
  try_except (join_state_check api user room_id) (λ _, Ok None) = Ok None →
  ∃ has_join_room,
    _apply_rules config user JOIN_ROOM = Ok has_join_room
    ∧ callback_user_may_join_room api config user room_id is_invited
      = Ok (has_join_room || is_invited).
Proof.
  intros Htry. unfold callback_user_may_join_room. rewrite Htry. simpl.
  query_verdict config user JOIN_ROOM b Hb.
  exists b. split; [exact Hb|].
  rewrite Hb. simpl. by destruct (b || is_invited).
Qed.

(** C5. When the state lookup succeeds and the content of the user's
    [m.room.member] entry has membership [join], the callback returns
    [True], whatever [is_invited], the rules and [default_deny] are. *)
Theorem may_join_already_joined (api : ModuleApi)
    (config : UserRestrictionsModuleConfig) (user room_id : string)
    (is_invited : bool) (state : gmap (string * string) pyval)
    (member_event event_content : gmap string pyval) :
  get_room_state api room_id = Ok state →
  state !! ("m.room.member", user) = Some (PyDict member_event) →
  member_event !! "content" = Some (PyDict event_content) →
  event_content !! "membership" = Some (PyStr "join") →
  callback_user_may_join_room api config user room_id is_invited = Ok true.
Proof.
  intros Hstate Hmember Hcontent Hjoin.
  unfold callback_user_may_join_room, join_state_check.
  rewrite Hstate. simpl. rewrite Hmember. simpl default.
  rewrite (truthy_dict_entry _ _ _ Hcontent).
  unfold getitem. rewrite Hcontent. simpl.
  unfold dict_get. rewrite Hjoin. done.
Qed.

(** C6. When the state lookup raises an error, the error stays inside the
    callback, which returns [_apply_rules(user, JOIN_ROOM) or is_invited];
    that is also its result when the lookup succeeds and has no
    [m.room.member] entry for the user. *)
Theorem may_join_lookup_failure (api : ModuleApi)
    (config : UserRestrictionsModuleConfig) (user room_id : string)
    (is_invited : bool) (e : exn) :
  get_room_state api room_id = Raise e →
  is_Exception e = true →
  (∃ has_join_room,
     _apply_rules config user JOIN_ROOM = Ok has_join_room
     ∧ callback_user_may_join_room api config user room_id is_invited
       = Ok (has_join_room || is_invited))
  ∧ (∀ (api' : ModuleApi) (state : gmap (string * string) pyval),
     get_room_state api' room_id = Ok state →
     state !! ("m.room.member", user) = None →
     callback_user_may_join_room api' config user room_id is_invited
     = callback_user_may_join_room api config user room_id is_invited).
Proof.
  intros Hfail Hexc.
  assert (Htry : try_except (join_state_check api user room_id)
                   (λ _, Ok None) = Ok None).
  { unfold join_state_check. rewrite Hfail. simpl. by rewrite Hexc. }
  destruct (join_fallback api config user room_id is_invited Htry)
    as (b & Hb & Hres).
  split; [by exists b|].
  intros api' state Hstate Hnone.
  assert (Htry' : try_except (join_state_check api' user room_id)
                    (λ _, Ok None) = Ok None).
  { unfold join_state_check. rewrite Hstate. simpl. by rewrite Hnone. }
  destruct (join_fallback api' config user room_id is_invited Htry')
    as (b' & Hb' & Hres').
  rewrite Hres, Hres'. congruence.
Qed.

(** ** The leave gate *)

Lemma eq_str_dict_get (d : gmap string pyval) (k s : string) :
  eq_str (dict_get d k) s = true ↔ d !! k = Some (PyStr s).
Proof.
  unfold dict_get. destruct (d !! k) as [v|]; simpl; [|done].
  destruct v; simpl; try done.
  rewrite bool_decide_eq_true. split; congruence.
Qed.

(** C7. [check_event_allowed] raises the 403 [SynapseError] with the
    configured [leave_error_message] exactly for a member event with
    membership [leave], in a restricted room, whose sender is its state key
    and is a local user; every other event is returned unchanged. *)
Theorem check_event_allowed_spec (api : ModuleApi) (config : Config)
    (event : EventBase) (state_events : gmap (string * string) pyval) :
  (check_event_allowed api config event state_events
   = Raise (SynapseError 403 (leave_error_message config) FORBIDDEN)
   ↔ blocked_leave api config event)
  ∧ (¬ blocked_leave api config event →
     check_event_allowed api config event state_events = Ok event)
  ∧ (∀ e, check_event_allowed api config event state_events = Raise e →
     blocked_leave api config event).
Proof.
  unfold check_event_allowed, blocked_leave.
  pose proof (eq_str_dict_get (content event) "membership" "leave") as Hm.
  case_bool_decide as Htype; simpl.
  2:{ split_and!; [split|..]; intros; try done; tauto. }
  destruct (eq_str _ _) eqn:Hleave; simpl.
  2:{ assert (content event !! "membership" ≠ Some (PyStr "leave"))
        by (intros H; apply Hm in H; done).
      split_and!; [split|..]; intros; try done; tauto. }
  case_bool_decide as Hroom; simpl.
  { split_and!; [split|..]; intros; try done; tauto. }
  assert (Hin : room_id event ∈ restricted_rooms config).
  { destruct (decide (room_id event ∈ restricted_rooms config)); tauto. }
  case_bool_decide as Hself; simpl.
  2:{ split_and!; [split|..]; intros; try done; tauto. }
  destruct (is_mine api (sender event)) eqn:Hmine.
  - split_and!; [split|..]; intros; try done; tauto.
  - split_and!; [split|..]; intros; try done.
    destruct H as (_ & _ & _ & _ & ?). done.
Qed.

(** C8. [check_can_deactivate_user(user_id, by_admin)] returns [by_admin],
    whoever the user is. *)
Theorem check_can_deactivate_user_spec (user_id : string) (by_admin : bool) :
  check_can_deactivate_user user_id by_admin = Ok by_admin
  ∧ check_can_deactivate_user user_id false = Ok false
  ∧ check_can_deactivate_user user_id true = Ok true
  ∧ ∀ other_user,
      check_can_deactivate_user other_user by_admin
      = check_can_deactivate_user user_id by_admin.
Proof. done. Qed.

(** ** Parsing the gate's configuration *)

Lemma room_ok_spec room : room_ok room = true ↔ room_id_string room.
Proof.
  unfold room_id_string. destruct room as [| | |s| |]; simpl;
    try (split; [done|intros [? [=]]]).
  unfold startswith. destruct s as [|c t].
  - simpl. split; [done|intros [? [=]]].
  - change (String.prefix "!" (String c t))
      with (if ascii_dec "!" c then String.prefix EmptyString t else false).
    destruct (ascii_dec "!" c) as [<-|Hc].
    + destruct t; simpl; (split; [intros _; by eexists|done]).
    + split; [done|]. intros [rest [= -> _]]. done.
Qed.

(** The loop raises at the first entry that is not a room identifier. *)
Lemma for_rooms_forallb rooms :
  for_rooms rooms
  = if forallb room_ok rooms then Ok ()
    else Raise (ConfigError
      "Each entry in restricted_rooms must be a valid room ID starting with '!'").
Proof.
  induction rooms as [|room rooms IH]; simpl; [done|].
  by destruct (room_ok room).
Qed.

Lemma forallb_room_ok rooms :
  forallb room_ok rooms = true ↔ ∀ room, room ∈ rooms → room_id_string room.
Proof.
  induction rooms as [|room rooms IH]; simpl.
  - split; [|done]. intros _ room Hin. by apply elem_of_nil in Hin.
  - rewrite andb_true_iff, IH, room_ok_spec. split.
    + intros [Hroom Hall] r [->|Hin]%elem_of_cons; auto.
    + intros Hall. split; [|intros r Hin]; apply Hall;
        [by left|by right].
Qed.

Lemma config_rejected_iff config :
  config_rejected config
  ↔ rooms_accepted config && message_accepted config = false.
Proof.
  unfold config_rejected, rooms_accepted, message_accepted.
  rewrite andb_false_iff. split.
  - intros [(v & -> & Hv)|[(rooms & room & -> & Hin & Hbad)|(v & -> & Hv)]].
    + left. by destruct v.
    + left. apply not_true_is_false. intros Hall.
      apply Hbad. by apply (proj1 (forallb_room_ok rooms) Hall).
    + by right.
  - intros [Hrooms|Hmsg].
    + destruct (config !! "restricted_rooms") as [v|]; [|done].
      destruct (is_list v) eqn:Hv; [|left; by exists v].
      destruct v as [| | | |rooms|]; try done.
      right; left.
      assert (Hex : Exists (λ room, ¬ room_id_string room) rooms).
      { apply not_Forall_Exists; [intros room|].
        - destruct (room_ok room) eqn:Hok.
          + left. by apply room_ok_spec.
          + right. intros Hid. apply room_ok_spec in Hid. congruence.
        - intros Hall. rewrite Forall_forall in Hall.
          apply forallb_room_ok in Hall. congruence. }
      apply Exists_exists in Hex as (room & Hin & Hbad).
      by exists rooms, room.
    + destruct (config !! "leave_error_message") as [v|]; [|done].
      right; right. by exists v.
Qed.

(** [parse_config] by its two checks. *)
Lemma parse_config_checks config :
  parse_config config
  = if rooms_accepted config && message_accepted config then
      Ok {| restricted_rooms := str_set (configured_rooms config);
            leave_error_message := configured_message config |}
    else
      Raise (ConfigError
        (if negb (rooms_accepted config) then
           match config !! "restricted_rooms" with
           | Some (PyList _) =>
               "Each entry in restricted_rooms must be a valid room ID starting with '!'"
           | _ => "restricted_rooms must be a list of strings"
           end
         else "leave_error_message must be a string")).
Proof.
  unfold parse_config, rooms_accepted, message_accepted, configured_rooms,
    configured_message, dict_get_default, DEFAULT_LEAVE_ERROR_MESSAGE.
  destruct (config !! "restricted_rooms") as [[| | | |rooms|]|]; simpl;
    try done.
  - rewrite for_rooms_forallb.
    destruct (forallb room_ok rooms); simpl; [|done].
    by destruct (config !! "leave_error_message") as [[| | | | |]|].
  - by destruct (config !! "leave_error_message") as [[| | | | |]|].
Qed.

(** The members of the set built from a list of validated entries. *)
Lemma elem_of_str_set rooms s :
  s ∈ str_set rooms ↔ PyStr s ∈ rooms.
Proof.
  unfold str_set. rewrite elem_of_list_to_set, list_elem_of_omap. split.
  - intros (v & Hin & Hv). destruct v; try done. by injection Hv as ->.
  - intros Hin. by exists (PyStr s).
Qed.

(** C9. [parse_config] raises a [ConfigError] exactly when
    [restricted_rooms] is present and not a list, or one of its entries is
    not a string starting with an exclamation mark, or [leave_error_message]
    is present and not a string.  Otherwise it returns the set of the
    entries of [restricted_rooms] and the message, which is
    "You are not allowed to leave this room." when none is configured; it
    raises nothing else. *)
Theorem parse_config_spec (config : gmap string pyval) :
  ((∃ msg, parse_config config = Raise (ConfigError msg))
     ↔ config_rejected config)
  ∧ (¬ config_rejected config →
     parse_config config
     = Ok {| restricted_rooms := str_set (configured_rooms config);
             leave_error_message := configured_message config |}
     ∧ (∀ s, s ∈ str_set (configured_rooms config)
             ↔ PyStr s ∈ configured_rooms config)
     ∧ (config !! "leave_error_message" = None →
        configured_message config
        = "You are not allowed to leave this room."))
  ∧ (∀ e, parse_config config = Raise e → ∃ msg, e = ConfigError msg).
Proof.
  rewrite config_rejected_iff, parse_config_checks.
  destruct (rooms_accepted config && message_accepted config) eqn:Hacc.
  - split_and!.
    + split; [intros [msg [=]]|done].
    + intros _. split_and!; [done|apply elem_of_str_set|].
      unfold configured_message. by intros ->.
    + intros e [=].
  - split_and!.
    + split; [done|intros _; by eexists].
    + done.
    + intros e [= <-]. by eexists.
Qed.

(** * The theorems at the sample inputs *)

(** Closed decidable facts about the sample inputs, by evaluation. *)
Ltac by_evaluation :=
  apply (bool_decide_unpack _); vm_compute; exact I.

(** [apply_rules_spec] at [ordered_config] and [local_only_config]. *)
Lemma apply_rules_spec_witness :
  (∃ msg, _apply_rules ordered_config "@x:hs" "kick" = Raise (ValueError msg))
  ∧ _apply_rules ordered_config "@x:hs" "invite" = Ok true
  ∧ _apply_rules ordered_config "@y:hs" "invite" = Ok false
  ∧ (_apply_rules local_only_config "@a:x" "invite_all" = Ok false
     ↔ "invite_all" ∈ default_deny local_only_config)
  ∧ (_apply_rules local_only_config "@a:x" "invite" = Ok true
     ↔ "invite" ∉ default_deny local_only_config).
Proof.
  split_and!.
  - apply (proj1 (apply_rules_spec ordered_config "@x:hs" "kick")).
    by_evaluation.
  - destruct (apply_rules_spec ordered_config "@x:hs" "invite") as [_ H].
    destruct H as (Hfirst & _ & _); [by_evaluation|].
    apply (Hfirst [no_decision] (allow_user "@x:hs") [deny_all]);
      [reflexivity|repeat constructor|reflexivity].
  - destruct (apply_rules_spec ordered_config "@y:hs" "invite") as [_ H].
    destruct H as (Hfirst & _ & _); [by_evaluation|].
    apply (Hfirst [no_decision; allow_user "@x:hs"] deny_all []);
      [reflexivity|repeat constructor|reflexivity].
  - destruct (apply_rules_spec local_only_config "@a:x" "invite_all")
      as [_ H].
    destruct H as (_ & _ & Hnil); [by_evaluation|].
    exact (proj1 (Hnil eq_refl)).
  - destruct (apply_rules_spec local_only_config "@a:x" "invite") as [_ H].
    destruct H as (_ & Hundecided & _); [by_evaluation|].
    refine (proj2 (Hundecided _)). constructor.
Defined.

(** [first_match_wins] at [shadowed_config]. *)
Lemma first_match_wins_witness :
  _apply_rules shadowed_config "@x:hs" "create_room" = Ok false.
Proof.
  apply (first_match_wins shadowed_config deny_all (allow_user "@x:hs") []
           "@x:hs" "create_room").
  - reflexivity.
  - reflexivity.
  - reflexivity.
  - by_evaluation.
Defined.

(** [may_invite_step4] at [local_only_config]: an inviter at [x] and one
    at [z]. *)
Lemma may_invite_step4_witness :
  callback_user_may_invite local_only_config "@a:x" "@b:y" "!r" = Ok true
  ∧ callback_user_may_invite local_only_config "@a:z" "@b:y" "!r" = Ok false
  ∧ callback_user_may_invite local_only_config "@a:X" "@b:y" "!r" = Ok true.
Proof.
  split_and!.
  - destruct (may_invite_step4 local_only_config "@a:x" "@b:y" "!r")
      as (_ & _ & Hx); [reflexivity..|].
    by apply (Hx eq_refl "@a").
  - destruct (may_invite_step4 local_only_config "@a:z" "@b:y" "!r")
      as (_ & _ & Hx); [reflexivity..|].
    by apply (Hx eq_refl "@a").
  - destruct (may_invite_step4 local_only_config "@a:X" "@b:y" "!r")
      as (Hcut & _ & _); [reflexivity..|].
    by rewrite (Hcut "@a" "X" eq_refl eq_refl).
Defined.

(** [may_invite_total_iff_colon] at [local_only_config]. *)
Lemma may_invite_total_iff_colon_witness :
  callback_user_may_invite local_only_config "a" "@b:y" "!r"
  = Raise IndexError
  ∧ ∃ verdict,
      callback_user_may_invite local_only_config "@a:x" "@b:y" "!r"
      = Ok verdict.
Proof.
  split.
  - by apply (proj1 (may_invite_total_iff_colon local_only_config
                       "a" "@b:y" "!r")).
  - by apply (proj1 (proj2 (may_invite_total_iff_colon local_only_config
                              "@a:x" "@b:y" "!r"))).
Defined.

(** [may_join_already_joined] at [joined_api], for a user that the rules
    and [default_deny] would not let join. *)
Lemma may_join_already_joined_witness :
  callback_user_may_join_room joined_api local_only_config "@b:y" "!r" false
  = Ok true
  ∧ _apply_rules local_only_config "@b:y" JOIN_ROOM = Ok false.
Proof.
  split; [|reflexivity].
  apply (may_join_already_joined joined_api local_only_config "@b:y" "!r"
           false joined_state
           {[ "content" := PyDict {[ "membership" := PyStr "join" ]} ]}
           {[ "membership" := PyStr "join" ]}); reflexivity.
Defined.

(** [may_join_lookup_failure] at [failing_api]. *)
Lemma may_join_lookup_failure_witness :
  callback_user_may_join_room failing_api local_only_config "@b:y" "!r" true
  = Ok true
  ∧ callback_user_may_join_room empty_api local_only_config "@b:y" "!r" true
    = callback_user_may_join_room failing_api local_only_config "@b:y" "!r"
        true.
Proof.
  destruct (may_join_lookup_failure failing_api local_only_config "@b:y"
              "!r" true (HostError "state unavailable") eq_refl eq_refl)
    as [(b & Hb & Hres) Hsame].
  split.
  - rewrite Hres. by rewrite orb_true_r.
  - by apply (Hsame empty_api ∅).
Defined.

(** [check_event_allowed_spec] at the self-leave and at the kick. *)
Lemma check_event_allowed_spec_witness :
  check_event_allowed failing_api gate_config self_leave ∅
  = Raise (SynapseError 403 "You are not allowed to leave this room."
             FORBIDDEN)
  ∧ check_event_allowed failing_api gate_config admin_kick ∅ = Ok admin_kick.
Proof.
  split.
  - apply (proj1 (check_event_allowed_spec failing_api gate_config
                    self_leave ∅)).
    unfold blocked_leave. split_and!; first [reflexivity|by_evaluation].
  - apply (proj1 (proj2 (check_event_allowed_spec failing_api gate_config
                           admin_kick ∅))).
    intros (_ & _ & _ & Hself & _). discriminate Hself.
Defined.

(** [parse_config_spec] at a configuration that passes and at one with an
    entry that is not a room identifier. *)
Lemma parse_config_spec_witness :
  parse_config good_gate_config
  = Ok {| restricted_rooms := str_set [PyStr "!a"; PyStr "!b"];
          leave_error_message := "You are not allowed to leave this room." |}
  ∧ ∃ msg, parse_config bad_gate_config = Raise (ConfigError msg).
Proof.
  split.
  - apply (proj1 (proj2 (parse_config_spec good_gate_config))).
    rewrite config_rejected_iff. by vm_compute.
  - apply (proj1 (parse_config_spec bad_gate_config)).
    rewrite config_rejected_iff. by vm_compute.
Defined.

(** * Further properties

    Properties of the two modules beyond the statements of the design
    document: edge cases, invariants and the way the functions compose. *)

(** ** Lowercasing and domains *)

Lemma lower_ascii_idemp c : lower_ascii (lower_ascii c) = lower_ascii c.
Proof. by destruct c as [[] [] [] [] [] [] [] []]. Qed.

Lemma lower_idemp s : lower (lower s) = lower s.
Proof.
  induction s as [|c t IH]; simpl; [done|].
  by rewrite lower_ascii_idemp, IH.
Qed.



Lemma contains_at sep l d : contains sep (l ++ String sep d) = true.
Proof.
  induction l as [|c t IH]; simpl.
  - by rewrite bool_decide_eq_true_2.
  - rewrite IH. apply orb_true_r.
Qed.

Lemma get_domain_normalised user_id d :
  _get_domain user_id = Ok d → lower d = d.
Proof.
  unfold _get_domain. destruct (_ !! _); intros [= <-]. apply lower_idemp.
Qed.


(** X1. [_get_domain] returns a domain exactly for an identifier with a
    colon: the identifier is cut at its first colon, and the domain is the
    lowercased rest, further colons (a port) included.  It raises exactly
    when the identifier has no colon, and then [IndexError].  A domain that
    is returned is already lowercase. *)
Theorem get_domain_spec (user_id : string) :
  (∀ d, _get_domain user_id = Ok d ↔
     ∃ localpart domain,
       user_id = localpart ++ ":" ++ domain
       ∧ contains ":" localpart = false ∧ d = lower domain)
  ∧ (∀ e, _get_domain user_id = Raise e ↔
       e = IndexError ∧ contains ":" user_id = false)
  ∧ (∀ d, _get_domain user_id = Ok d → lower d = d).
Proof.
  split_and!; [| |apply get_domain_normalised].
  - intros d. split.
    + destruct (contains ":" user_id) eqn:Hc.
      * destruct (contains_cut _ _ Hc) as (l & dm & -> & Hl).
        change (String ":" dm) with (":" ++ dm).
        rewrite (get_domain_present _ _ Hl). intros [= <-]. by exists l, dm.
      * by rewrite (get_domain_absent _ Hc).
    + intros (l & dm & -> & Hl & ->). by apply get_domain_present.
  - intros e. split.
    + destruct (contains ":" user_id) eqn:Hc.
      * destruct (contains_cut _ _ Hc) as (l & dm & -> & Hl).
        change (String ":" dm) with (":" ++ dm).
        by rewrite (get_domain_present _ _ Hl).
      * rewrite (get_domain_absent _ Hc). by intros [= <-].
    + intros [-> Hc]. by apply get_domain_absent.
Qed.



Lemma apply_rules_same_rules config1 config2 user_id permission :
  rules config1 = rules config2 →
  default_deny config1 = default_deny config2 →
  _apply_rules config1 user_id permission
  = _apply_rules config2 user_id permission.
Proof. unfold _apply_rules. by intros -> ->. Qed.

(** X3. An entry of [local_homeservers] that is not lowercase never
    matches: the inviter's domain is lowercased before the membership test
    and the entries are not, so taking such an entry out of the set changes
    no result of [callback_user_may_invite]. *)
Theorem mixed_case_homeserver_never_matches
    (config : UserRestrictionsModuleConfig)
    (h inviter invitee room_id : string) :
  lower h ≠ h →
  callback_user_may_invite (without_homeserver config h) inviter invitee
    room_id
  = callback_user_may_invite config inviter invitee room_id.
Proof.
  intros Hh. unfold callback_user_may_invite.
  rewrite !(apply_rules_same_rules (without_homeserver config h) config)
    by done.
  query_verdict config inviter INVITE b1 H1.
  query_verdict config inviter INVITE_ALL b2 H2.
  query_verdict config invitee RECEIVE_ALL_INVITES b3 H3.
  query_verdict config invitee RECEIVE_INVITES b4 H4.
  rewrite H1, H2, H3, H4. clear H1 H2 H3 H4.
  destruct b1, b2, b3, b4; simpl; try reflexivity.
  destruct (_get_domain inviter) as [d|e] eqn:Hd; simpl; [|reflexivity].
  f_equal. apply bool_decide_ext.
  assert (d ≠ h) as Hne.
  { intros ->. apply get_domain_normalised in Hd. exact (Hh Hd). }
  rewrite elem_of_difference, elem_of_singleton. tauto.
Qed.

(** [mixed_case_homeserver_never_matches] at [mixed_case_config]: the
    inviter at [Example.org] is not taken for local. *)
Lemma mixed_case_homeserver_never_matches_witness :
  callback_user_may_invite (without_homeserver mixed_case_config "Example.org")
    "@a:Example.org" "@b:y" "!r"
  = callback_user_may_invite mixed_case_config "@a:Example.org" "@b:y" "!r"
  ∧ callback_user_may_invite mixed_case_config "@a:Example.org" "@b:y" "!r"
    = Ok false.
Proof.
  split.
  - by apply (mixed_case_homeserver_never_matches mixed_case_config
                "Example.org").
  - reflexivity.
Defined.

(** ** The rule list *)

Lemma for_rules_app pre post user_id permission :
  for_rules (pre ++ post) user_id permission
  = match for_rules pre user_id permission with
    | Some b => Some b
    | None => for_rules post user_id permission
    end.
Proof.
  induction pre as [|r pre IH]; simpl; [done|].
  by destruct (apply r user_id permission).
Qed.

Lemma for_rules_decided rs user_id permission b :
  for_rules rs user_id permission = Some b
  ↔ first_decision rs user_id permission (if b then Allow else Deny).
Proof.
  split.
  - induction rs as [|r rs IH]; simpl; [done|].
    destruct (apply r user_id permission) eqn:Hr.
    + intros [= <-]. exists [], r, rs. by split_and!.
    + intros [= <-]. exists [], r, rs. by split_and!.
    + intros H. destruct (IH H) as (pre & rule & post & -> & Hpre & Hrule).
      exists (r :: pre), rule, post. split_and!; [done|by constructor|done].
  - intros (pre & rule & post & -> & Hpre & Hrule).
    rewrite (for_rules_skip _ _ _ _ Hpre). simpl. rewrite Hrule.
    by destruct b.
Qed.

Lemma for_rules_none rs user_id permission :
  for_rules rs user_id permission = None
  ↔ Forall (λ r, apply r user_id permission = NoDecision) rs.
Proof.
  split; [|apply for_rules_undecided].
  induction rs as [|r rs IH]; simpl; [constructor|].
  destruct (apply r user_id permission) eqn:Hr; try done.
  intros H. constructor; auto.
Qed.

Lemma apply_rules_verdict config user_id permission b :
  permission ∈ ALL_UNDERSTOOD_PERMISSIONS →
  _apply_rules config user_id permission = Ok b
  ↔ first_decision (rules config) user_id permission
      (if b then Allow else Deny)
    ∨ (Forall (λ r, apply r user_id permission = NoDecision) (rules config)
       ∧ fallback config permission = b).
Proof.
  intros Hin.
  rewrite (apply_rules_recognised _ _ _ Hin), <-for_rules_decided,
    <-for_rules_none.
  destruct (for_rules _ _ _) as [b'|]; simpl.
  - split; [intros [= ->]; by left|]. by intros [[= ->]|[[=] _]].
  - split; [intros [= <-]; by right|]. by intros [[=]|[_ ->]].
Qed.

Lemma fallback_true config permission :
  fallback config permission = true ↔ permission ∉ default_deny config.
Proof.
  unfold fallback. rewrite negb_true_iff, bool_decide_eq_false. done.
Qed.

Lemma fallback_false config permission :
  fallback config permission = false ↔ permission ∈ default_deny config.
Proof.
  unfold fallback. rewrite negb_false_iff, bool_decide_eq_true. done.
Qed.

(** X4. [callback_user_may_create_room] never raises.  It returns [True]
    exactly when the first rule with a decision about [create_room] for the
    user allows, or no rule decides and [create_room] is not in
    [default_deny]; it returns [False] exactly when that first rule denies,
    or no rule decides and [create_room] is in [default_deny]. *)
Theorem may_create_room_verdict (config : UserRestrictionsModuleConfig)
    (user : string) :
  (∃ verdict, callback_user_may_create_room config user = Ok verdict)
  ∧ (callback_user_may_create_room config user = Ok true
     ↔ first_decision (rules config) user CREATE_ROOM Allow
       ∨ (Forall (λ r, apply r user CREATE_ROOM = NoDecision) (rules config)
          ∧ CREATE_ROOM ∉ default_deny config))
  ∧ (callback_user_may_create_room config user = Ok false
     ↔ first_decision (rules config) user CREATE_ROOM Deny
       ∨ (Forall (λ r, apply r user CREATE_ROOM = NoDecision) (rules config)
          ∧ CREATE_ROOM ∈ default_deny config)).
Proof.
  assert (Hin : CREATE_ROOM ∈ ALL_UNDERSTOOD_PERMISSIONS)
    by apply constants_recognised.
  unfold callback_user_may_create_room. split_and!.
  - rewrite (apply_rules_recognised _ _ _ Hin). by eexists.
  - by rewrite (apply_rules_verdict _ _ _ true Hin), fallback_true.
  - by rewrite (apply_rules_verdict _ _ _ false Hin), fallback_false.
Qed.

(** X5. Rules behind a rule that decides a query are unreachable for
    it: two configurations whose rule lists agree up to and including such
    a rule give the same result of [_apply_rules], whatever follows in the
    lists and whatever their [default_deny] sets are. *)
Theorem rules_behind_a_decision_unreachable
    (config1 config2 : UserRestrictionsModuleConfig)
    (pre : list Rule) (rule : Rule) (post1 post2 : list Rule)
    (user_id permission : string) :
  rules config1 = (pre ++ rule :: post1)%list →
  rules config2 = (pre ++ rule :: post2)%list →
  apply rule user_id permission ≠ NoDecision →
  _apply_rules config1 user_id permission
  = _apply_rules config2 user_id permission.
Proof.
  intros H1 H2 Hrule. unfold _apply_rules.
  rewrite H1, H2, !for_rules_app. simpl.
  case_bool_decide; [done|].
  destruct (for_rules pre user_id permission); [done|].
  by destruct (apply rule user_id permission).
Qed.

(** [rules_behind_a_decision_unreachable] at [shadowed_config]. *)
Lemma rules_behind_a_decision_unreachable_witness :
  _apply_rules shadowed_config "@x:hs" "create_room"
  = _apply_rules
      {| rules := [deny_all]; default_deny := ∅; local_homeservers := ∅ |}
      "@x:hs" "create_room"
  ∧ _apply_rules shadowed_config "@x:hs" "create_room"
    = _apply_rules
        {| rules := [deny_all; allow_all];
           default_deny := {[ "create_room" ]};
           local_homeservers := {[ "x" ]} |}
        "@x:hs" "create_room".
Proof.
  split.
  - by apply (rules_behind_a_decision_unreachable shadowed_config _
                [] deny_all [allow_user "@x:hs"] []).
  - by apply (rules_behind_a_decision_unreachable shadowed_config _
                [] deny_all [allow_user "@x:hs"] [allow_all]).
Defined.

(** X6. A rule without a decision for a query is transparent for it:
    putting it anywhere into the rule list leaves the result of
    [_apply_rules] for that query as it was. *)
Theorem undecided_rule_transparent
    (config1 config2 : UserRestrictionsModuleConfig)
    (pre : list Rule) (rule : Rule) (post : list Rule)
    (user_id permission : string) :
  rules config1 = (pre ++ post)%list →
  rules config2 = (pre ++ rule :: post)%list →
  default_deny config1 = default_deny config2 →
  apply rule user_id permission = NoDecision →
  _apply_rules config1 user_id permission
  = _apply_rules config2 user_id permission.
Proof.
  intros H1 H2 Hdeny Hrule. unfold _apply_rules.
  rewrite H1, H2, Hdeny, !for_rules_app. simpl. by rewrite Hrule.
Qed.

(** [undecided_rule_transparent] at [ordered_config], for a user the
    exception is not about. *)
Lemma undecided_rule_transparent_witness :
  _apply_rules
    {| rules := [no_decision; deny_all];
       default_deny := {[ "invite" ]};
       local_homeservers := ∅ |} "@y:hs" "invite"
  = _apply_rules ordered_config "@y:hs" "invite".
Proof.
  by apply (undecided_rule_transparent _ ordered_config
              [no_decision] (allow_user "@x:hs") [deny_all]).
Defined.

(** ** Joining, for any room state *)

Lemma join_state_check_joined api user room_id state :
  get_room_state api room_id = Ok state →
  try_except (join_state_check api user room_id) (λ _, Ok None)
  = Ok (if joined_in state user then Some true else None).
Proof.
  intros Hstate. unfold join_state_check, joined_in. rewrite Hstate. simpl.
  destruct (state !! ("m.room.member", user)) as [member_event|];
    simpl; [|reflexivity].
  destruct member_event as [|b|n|s|l|member_event]; try reflexivity.
  - by destruct b.
  - simpl. by destruct (negb (n =? 0)%Z).
  - simpl. by destruct (negb (bool_decide (s = EmptyString))).
  - by destruct l.
  - destruct (member_event !! "content") as [event_content|] eqn:Hcontent.
    + rewrite (truthy_dict_entry _ _ _ Hcontent). simpl. rewrite Hcontent.
      simpl.
      destruct event_content as [| | | | |event_content]; simpl;
        try reflexivity.
      unfold dict_get.
      destruct (event_content !! "membership") as [membership|]; simpl;
        [|reflexivity].
      destruct membership as [| | |m| |]; simpl; try reflexivity.
      by case_bool_decide.
    + destruct (truthy (PyDict member_event)); simpl;
        [rewrite Hcontent|]; reflexivity.
Qed.

(** X7. When the state lookup succeeds, [callback_user_may_join_room]
    returns [joined or has_join_room or is_invited], whatever the state
    holds: a member entry that is not an event with a content dict (a
    string, a list, a dict without ["content"]) makes the state check fail
    inside the [try], and the callback goes on to the rules as if the user
    were not joined. *)
Theorem may_join_by_state (api : ModuleApi)
    (config : UserRestrictionsModuleConfig) (user room_id : string)
    (is_invited : bool) (state : gmap (string * string) pyval) :
  get_room_state api room_id = Ok state →
  ∃ has_join_room,
    _apply_rules config user JOIN_ROOM = Ok has_join_room
    ∧ callback_user_may_join_room api config user room_id is_invited
      = Ok (joined_in state user || has_join_room || is_invited).
Proof.
  intros Hstate.
  pose proof (join_state_check_joined api user room_id state Hstate) as Htry.
  destruct (joined_in state user).
  - query_verdict config user JOIN_ROOM b Hb.
    exists b. split; [exact Hb|].
    unfold callback_user_may_join_room. by rewrite Htry.
  - destruct (join_fallback api config user room_id is_invited Htry)
      as (b & Hb & Hres).
    by exists b.
Qed.

(** [may_join_by_state] at a state whose member entry is a string. *)
Lemma may_join_by_state_witness :
  ∃ has_join_room,
    _apply_rules local_only_config "@b:y" JOIN_ROOM = Ok has_join_room
    ∧ callback_user_may_join_room malformed_api local_only_config "@b:y"
        "!r" false
      = Ok (joined_in malformed_state "@b:y" || has_join_room || false).
Proof.
  exact (may_join_by_state malformed_api local_only_config "@b:y" "!r" false
           malformed_state eq_refl).
Defined.

(** X8. When the state lookup returns or fails with an [Exception],
    [callback_user_may_join_room] returns a verdict, and the verdict is
    [True] exactly when the user is invited, or has the [join_room]
    permission, or is joined according to the state that was looked up. *)
Theorem may_join_verdict (api : ModuleApi)
    (config : UserRestrictionsModuleConfig) (user room_id : string)
    (is_invited : bool) :
  (∀ e, get_room_state api room_id = Raise e → is_Exception e = true) →
  ∃ verdict,
    callback_user_may_join_room api config user room_id is_invited
    = Ok verdict
    ∧ (verdict = true
       ↔ is_invited = true
         ∨ _apply_rules config user JOIN_ROOM = Ok true
         ∨ ∃ state, get_room_state api room_id = Ok state
                    ∧ joined_in state user = true).
Proof.
  intros Hexc.
  destruct (get_room_state api room_id) as [state|e] eqn:Hstate.
  - pose proof (join_state_check_joined api user room_id state Hstate)
      as Htry.
    destruct (joined_in state user) eqn:Hjoined.
    + exists true. split.
      * unfold callback_user_may_join_room. by rewrite Htry.
      * split; [|done]. intros _. right; right. by exists state.
    + destruct (join_fallback api config user room_id is_invited Htry)
        as (b & Hb & Hres).
      eexists. split; [exact Hres|]. rewrite Hb, orb_true_iff. split.
      * intros [->| ->]; [by right; left|by left].
      * intros [->|[[= ->]|(state' & [= <-] & Hj)]]; auto. congruence.
  - assert (Htry : try_except (join_state_check api user room_id)
                     (λ _, Ok None) = Ok None).
    { unfold join_state_check. rewrite Hstate. simpl.
      by rewrite (Hexc e eq_refl). }
    destruct (join_fallback api config user room_id is_invited Htry)
      as (b & Hb & Hres).
    eexists. split; [exact Hres|]. rewrite Hb, orb_true_iff. split.
    + intros [->| ->]; [by right; left|by left].
    + intros [->|[[= ->]|(state' & [=] & _)]]; auto.
Qed.

(** [may_join_verdict] at a host whose lookup fails. *)
Lemma may_join_verdict_witness :
  ∃ verdict,
    callback_user_may_join_room failing_api local_only_config "@b:y" "!r"
      false = Ok verdict
    ∧ (verdict = true
       ↔ false = true
         ∨ _apply_rules local_only_config "@b:y" JOIN_ROOM = Ok true
         ∨ ∃ state, get_room_state failing_api "!r" = Ok state
                    ∧ joined_in state "@b:y" = true).
Proof.
  apply (may_join_verdict failing_api local_only_config "@b:y" "!r" false).
  intros e [= <-]. reflexivity.
Defined.

(** ** A catch-all rule at the front *)

Lemma apply_rules_first_decides config rule rest user_id permission :
  rules config = rule :: rest →
  permission ∈ ALL_UNDERSTOOD_PERMISSIONS →
  apply rule user_id permission ≠ NoDecision →
  _apply_rules config user_id permission
  = Ok (match apply rule user_id permission with
        | Allow => true
        | _ => false
        end).
Proof.
  intros Hrules Hin Hrule.
  rewrite (apply_rules_recognised _ _ _ Hin), Hrules. simpl.
  by destruct (apply rule user_id permission).
Qed.

(** X9. With a first rule that denies every query, nobody may create a
    room and no invite is allowed (the domain of the inviter is not even
    looked at, so an inviter without a colon gets [False] and no error),
    and a user may join exactly when already joined or invited. *)
Theorem deny_all_first_closes (config : UserRestrictionsModuleConfig)
    (rule : Rule) (rest : list Rule) :
  rules config = rule :: rest →
  (∀ u p, apply rule u p = Deny) →
  (∀ user, callback_user_may_create_room config user = Ok false)
  ∧ (∀ inviter invitee room_id,
       callback_user_may_invite config inviter invitee room_id = Ok false)
  ∧ (∀ api user room_id is_invited state,
       get_room_state api room_id = Ok state →
       callback_user_may_join_room api config user room_id is_invited
       = Ok (joined_in state user || is_invited))
  ∧ (∀ api user room_id is_invited e,
       get_room_state api room_id = Raise e →
       is_Exception e = true →
       callback_user_may_join_room api config user room_id is_invited
       = Ok is_invited).
Proof.
  intros Hrules Hdeny.
  assert (Hq : ∀ u p, p ∈ ALL_UNDERSTOOD_PERMISSIONS →
                      _apply_rules config u p = Ok false).
  { intros u p Hin.
    rewrite (apply_rules_first_decides _ _ _ u p Hrules Hin);
      by rewrite Hdeny. }
  split_and!.
  - intros user. apply Hq, constants_recognised.
  - intros inviter invitee room_id. unfold callback_user_may_invite.
    rewrite (Hq inviter INVITE) by apply constants_recognised. done.
  - intros api user room_id is_invited state Hstate.
    pose proof (join_state_check_joined api user room_id state Hstate)
      as Htry.
    destruct (joined_in state user).
    + unfold callback_user_may_join_room. by rewrite Htry.
    + destruct (join_fallback api config user room_id is_invited Htry)
        as (b & Hb & ->).
      rewrite (Hq user JOIN_ROOM) in Hb by apply constants_recognised.
      by injection Hb as <-.
  - intros api user room_id is_invited e Hstate Hexc.
    assert (Htry : try_except (join_state_check api user room_id)
                     (λ _, Ok None) = Ok None).
    { unfold join_state_check. rewrite Hstate. simpl. by rewrite Hexc. }
    destruct (join_fallback api config user room_id is_invited Htry)
      as (b & Hb & ->).
    rewrite (Hq user JOIN_ROOM) in Hb by apply constants_recognised.
    by injection Hb as <-.
Qed.

(** [deny_all_first_closes] at [shadowed_config]. *)
Lemma deny_all_first_closes_witness :
  callback_user_may_create_room shadowed_config "@x:hs" = Ok false
  ∧ callback_user_may_invite shadowed_config "x" "@y:hs" "!r" = Ok false
  ∧ callback_user_may_join_room joined_api shadowed_config "@x:hs" "!r" true
    = Ok (joined_in joined_state "@x:hs" || true).
Proof.
  destruct (deny_all_first_closes shadowed_config deny_all
              [allow_user "@x:hs"] eq_refl (λ _ _, eq_refl))
    as (Hcreate & Hinvite & Hjoin & _).
  split_and!.
  - apply Hcreate.
  - apply Hinvite.
  - by apply Hjoin.
Defined.

(** X10. With a first rule that allows every query, every user may
    create rooms, every invite is allowed without a look at the inviter's
    domain or at [local_homeservers], and every join is allowed, also when
    the state lookup fails. *)
Theorem allow_all_first_opens (config : UserRestrictionsModuleConfig)
    (rule : Rule) (rest : list Rule) :
  rules config = rule :: rest →
  (∀ u p, apply rule u p = Allow) →
  (∀ user, callback_user_may_create_room config user = Ok true)
  ∧ (∀ inviter invitee room_id,
       callback_user_may_invite config inviter invitee room_id = Ok true)
  ∧ (∀ api user room_id is_invited,
       (∀ e, get_room_state api room_id = Raise e → is_Exception e = true) →
       callback_user_may_join_room api config user room_id is_invited
       = Ok true).
Proof.
  intros Hrules Hallow.
  assert (Hq : ∀ u p, p ∈ ALL_UNDERSTOOD_PERMISSIONS →
                      _apply_rules config u p = Ok true).
  { intros u p Hin.
    rewrite (apply_rules_first_decides _ _ _ u p Hrules Hin);
      by rewrite Hallow. }
  split_and!.
  - intros user. apply Hq, constants_recognised.
  - intros inviter invitee room_id. unfold callback_user_may_invite.
    rewrite (Hq inviter INVITE), (Hq inviter INVITE_ALL)
      by apply constants_recognised.
    done.
  - intros api user room_id is_invited Hexc.
    assert (Htry : ∃ returned,
      try_except (join_state_check api user room_id) (λ _, Ok None)
      = Ok returned ∧ (returned = Some true ∨ returned = None)).
    { destruct (get_room_state api room_id) as [state|e] eqn:Hstate.
      - rewrite (join_state_check_joined api user room_id state Hstate).
        eexists. split; [done|]. destruct (joined_in state user); auto.
      - exists None. split; [|by right].
        unfold join_state_check. rewrite Hstate. simpl.
        by rewrite (Hexc e eq_refl). }
    destruct Htry as (returned & Htry & [->| ->]).
    + unfold callback_user_may_join_room. by rewrite Htry.
    + destruct (join_fallback api config user room_id is_invited Htry)
        as (b & Hb & ->).
      rewrite (Hq user JOIN_ROOM) in Hb by apply constants_recognised.
      by injection Hb as <-.
Qed.

(** [allow_all_first_opens] at [open_config]. *)
Lemma allow_all_first_opens_witness :
  callback_user_may_create_room open_config "@x:hs" = Ok true
  ∧ callback_user_may_invite open_config "x" "@y:hs" "!r" = Ok true
  ∧ callback_user_may_join_room failing_api open_config "@x:hs" "!r" false
    = Ok true.
Proof.
  destruct (allow_all_first_opens open_config allow_all [deny_all] eq_refl
              (λ _ _, eq_refl))
    as (Hcreate & Hinvite & Hjoin).
  split_and!.
  - apply Hcreate.
  - apply Hinvite.
  - apply Hjoin. intros e [= <-]. reflexivity.
Defined.

(** X11. With an empty [local_homeservers], [receive_invites] alone
    lets no invite through: an invite is allowed exactly when the inviter
    has [invite] and either the inviter has [invite_all] or the invitee has
    [receive_all_invites]. *)
Theorem may_invite_without_local_homeservers
    (config : UserRestrictionsModuleConfig)
    (inviter invitee room_id : string) :
  local_homeservers config = ∅ →
  callback_user_may_invite config inviter invitee room_id = Ok true
  ↔ _apply_rules config inviter INVITE = Ok true
    ∧ (_apply_rules config inviter INVITE_ALL = Ok true
       ∨ _apply_rules config invitee RECEIVE_ALL_INVITES = Ok true).
Proof.
  intros Hempty. unfold callback_user_may_invite.
  query_verdict config inviter INVITE b1 H1.
  query_verdict config inviter INVITE_ALL b2 H2.
  query_verdict config invitee RECEIVE_ALL_INVITES b3 H3.
  query_verdict config invitee RECEIVE_INVITES b4 H4.
  rewrite H1, H2, H3, H4, Hempty. clear H1 H2 H3 H4.
  assert (Hstep :
    (if b4 then
       let! inviter_domain := _get_domain inviter in
       Ok (bool_decide (inviter_domain ∈ (∅ : gset string)))
     else Ok false) ≠ Ok true).
  { destruct b4; [|discriminate].
    destruct (_get_domain inviter) as [d|e]; [|discriminate].
    change (Ok (bool_decide (d ∈ (∅ : gset string))) ≠ Ok true).
    rewrite bool_decide_eq_false_2 by apply not_elem_of_empty.
    discriminate. }
  destruct b1, b2, b3; simpl;
    (split; [intros H|intros [H1 [H2|H2]]]);
    try discriminate; try (by apply Hstep in H); auto.
Qed.

(** [may_invite_without_local_homeservers] at [ordered_config]. *)
Lemma may_invite_without_local_homeservers_witness :
  callback_user_may_invite ordered_config "@x:hs" "@y:hs" "!r" = Ok true
  ↔ _apply_rules ordered_config "@x:hs" INVITE = Ok true
    ∧ (_apply_rules ordered_config "@x:hs" INVITE_ALL = Ok true
       ∨ _apply_rules ordered_config "@y:hs" RECEIVE_ALL_INVITES = Ok true).
Proof.
  exact (may_invite_without_local_homeservers ordered_config "@x:hs" "@y:hs"
           "!r" eq_refl).
Defined.

(** ** The leave gate under a parsed configuration *)

Lemma check_event_allowed_blocked api config event state_events :
  check_event_allowed api config event state_events
  = if leave_blocked api config event then
      Raise (SynapseError 403 (leave_error_message config) FORBIDDEN)
    else Ok event.
Proof.
  unfold check_event_allowed, leave_blocked.
  case_bool_decide; simpl; [|reflexivity].
  destruct (eq_str _ _); simpl; [|reflexivity].
  destruct (decide (room_id event ∈ restricted_rooms config)) as [Hin|Hout].
  - rewrite (bool_decide_eq_false_2 (_ ∉ _)) by (intros Hn; exact (Hn Hin)).
    by rewrite (bool_decide_eq_true_2 (_ ∈ _)).
  - rewrite (bool_decide_eq_true_2 (_ ∉ _)) by done.
    by rewrite (bool_decide_eq_false_2 (_ ∈ _)).
Qed.

Lemma parse_config_ok raw cfg :
  parse_config raw = Ok cfg →
  forallb room_ok (configured_rooms raw) = true
  ∧ restricted_rooms cfg = str_set (configured_rooms raw)
  ∧ leave_error_message cfg = configured_message raw.
Proof.
  rewrite parse_config_checks.
  destruct (rooms_accepted raw && message_accepted raw) eqn:Hacc; [|done].
  intros [= <-]. split; [|done].
  apply andb_true_iff in Hacc as [Hrooms _].
  unfold rooms_accepted in Hrooms. unfold configured_rooms.
  by destruct (raw !! "restricted_rooms") as [[| | | | |]|].
Qed.

(** X12. Every member of the [restricted_rooms] set that
    [parse_config] returns starts with an exclamation mark, and the set is
    empty when the key is missing from the configuration or holds an empty
    list. *)
Theorem parsed_rooms_are_room_ids (raw : gmap string pyval) (cfg : Config) :
  parse_config raw = Ok cfg →
  (∀ room, room ∈ restricted_rooms cfg → ∃ rest, room = "!" ++ rest)
  ∧ (raw !! "restricted_rooms" = None → restricted_rooms cfg = ∅)
  ∧ (raw !! "restricted_rooms" = Some (PyList []) →
     restricted_rooms cfg = ∅).
Proof.
  intros (Hall & -> & _)%parse_config_ok. split_and!.
  - intros room Hin%elem_of_str_set.
    destruct (proj1 (forallb_room_ok _) Hall _ Hin) as [rest [= ->]].
    by exists rest.
  - unfold configured_rooms. by intros ->.
  - unfold configured_rooms. by intros ->.
Qed.

(** [parsed_rooms_are_room_ids] at [good_gate_config]. *)
Lemma parsed_rooms_are_room_ids_witness :
  "!a" ∈ str_set [PyStr "!a"; PyStr "!b"] ∧ ∃ rest, "!a" = "!" ++ rest.
Proof.
  assert (Hin : "!a" ∈ str_set [PyStr "!a"; PyStr "!b"]).
  { apply elem_of_str_set, elem_of_cons. by left. }
  split; [exact Hin|].
  exact (proj1 (parsed_rooms_are_room_ids good_gate_config
                  {| restricted_rooms := str_set [PyStr "!a"; PyStr "!b"];
                     leave_error_message := DEFAULT_LEAVE_ERROR_MESSAGE |}
                  eq_refl) "!a" Hin).
Defined.

(** X13. [parse_config] followed by [check_event_allowed]: under a
    configuration that was parsed, the only error of the gate is the 403
    with the configured message (the default one when none is configured)
    and code [M_FORBIDDEN], and only for an event whose room is an entry of
    the configured list and so starts with an exclamation mark.  Events of
    rooms that are not listed pass, and without a [restricted_rooms] key
    every event passes. *)
Theorem parsed_gate_errors (raw : gmap string pyval) (cfg : Config)
    (api : ModuleApi) (event : EventBase)
    (state_events : gmap (string * string) pyval) :
  parse_config raw = Ok cfg →
  (∀ e, check_event_allowed api cfg event state_events = Raise e →
     e = SynapseError 403 (configured_message raw) "M_FORBIDDEN"
     ∧ PyStr (room_id event) ∈ configured_rooms raw
     ∧ ∃ rest, room_id event = "!" ++ rest)
  ∧ (PyStr (room_id event) ∉ configured_rooms raw →
     check_event_allowed api cfg event state_events = Ok event)
  ∧ (raw !! "restricted_rooms" = None →
     check_event_allowed api cfg event state_events = Ok event).
Proof.
  intros (Hall & Hrooms & Hmsg)%parse_config_ok.
  rewrite check_event_allowed_blocked. unfold leave_blocked.
  rewrite Hrooms, Hmsg.
  assert (Hout : PyStr (room_id event) ∉ configured_rooms raw →
    (if bool_decide (type event = "m.room.member")
        && eq_str (dict_get (content event) "membership") "leave"
        && bool_decide (room_id event ∈ str_set (configured_rooms raw))
        && bool_decide (sender event = state_key event)
        && is_mine api (sender event)
     then Raise (SynapseError 403 (configured_message raw) FORBIDDEN)
     else Ok event) = Ok event).
  { intros Hn.
    rewrite (bool_decide_eq_false_2 (_ ∈ _))
      by (by rewrite elem_of_str_set).
    by rewrite !andb_false_r. }
  split_and!.
  - intros e.
    destruct (decide (room_id event ∈ str_set (configured_rooms raw)))
      as [Hin|Hn]; rewrite elem_of_str_set in *; [|by rewrite (Hout Hn)].
    destruct (_ && _); intros [= <-]. split_and!; [done..|].
    destruct (proj1 (forallb_room_ok _) Hall _ Hin) as [rest [= ->]].
    by exists rest.
  - exact Hout.
  - intros Hnone. apply Hout. unfold configured_rooms. rewrite Hnone.
    apply not_elem_of_nil.
Qed.

(** [parsed_gate_errors] at [good_gate_config]: a leave from a room that
    is not listed passes. *)
Lemma parsed_gate_errors_witness :
  check_event_allowed failing_api
    {| restricted_rooms := str_set [PyStr "!a"; PyStr "!b"];
       leave_error_message := DEFAULT_LEAVE_ERROR_MESSAGE |} self_leave ∅
  = Ok self_leave.
Proof.
  apply (proj1 (proj2 (parsed_gate_errors good_gate_config _ failing_api
                         self_leave ∅ eq_refl))).
  change (configured_rooms good_gate_config) with [PyStr "!a"; PyStr "!b"].
  rewrite !elem_of_cons, elem_of_nil.
  intros [Hin|[Hin|[]]]; discriminate Hin.
Defined.

(** X14. [parse_config] reads [restricted_rooms] as a set: two lists
    with the same entries, in any order and with any repetitions, give the
    same result, be it the parsed configuration or the error. *)
Theorem parse_config_rooms_as_set (raw : gmap string pyval)
    (rooms1 rooms2 : list pyval) :
  (∀ room, room ∈ rooms1 ↔ room ∈ rooms2) →
  parse_config (<["restricted_rooms" := PyList rooms1]> raw)
  = parse_config (<["restricted_rooms" := PyList rooms2]> raw).
Proof.
  intros Hsame. rewrite !parse_config_checks.
  unfold rooms_accepted, message_accepted, configured_rooms,
    configured_message.
  rewrite !lookup_insert_eq, !lookup_insert_ne by done.
  assert (Hall : forallb room_ok rooms1 = forallb room_ok rooms2).
  { apply eq_true_iff_eq. rewrite !forallb_room_ok.
    split; intros H room Hin; apply H, Hsame, Hin. }
  assert (Hset : str_set rooms1 = str_set rooms2).
  { apply set_eq. intros s. by rewrite !elem_of_str_set. }
  by rewrite Hall, Hset.
Qed.

(** [parse_config_rooms_as_set] at a list with a repetition and a
    reordering of it. *)
Lemma parse_config_rooms_as_set_witness :
  parse_config
    {[ "restricted_rooms" := PyList [PyStr "!a"; PyStr "!b"; PyStr "!a"] ]}
  = parse_config {[ "restricted_rooms" := PyList [PyStr "!b"; PyStr "!a"] ]}.
Proof.
  apply (parse_config_rooms_as_set ∅ [PyStr "!a"; PyStr "!b"; PyStr "!a"]
           [PyStr "!b"; PyStr "!a"]).
  intros room. rewrite !elem_of_cons, elem_of_nil. tauto.
Defined.

(** X15. [parse_config] reads the keys [restricted_rooms] and
    [leave_error_message] only: an entry under another key, a misspelt
    [restricted_room] for one, is ignored without an error. *)
Theorem parse_config_ignores_other_keys (raw : gmap string pyval)
    (key : string) (value : pyval) :
  key ≠ "restricted_rooms" →
  key ≠ "leave_error_message" →
  parse_config (<[key := value]> raw) = parse_config raw.
Proof.
  intros Hrooms Hmsg. unfold parse_config, dict_get_default.
  by rewrite !lookup_insert_ne.
Qed.

(** [parse_config_ignores_other_keys] at [misspelt_gate_config]. *)
Lemma parse_config_ignores_other_keys_witness :
  parse_config misspelt_gate_config = parse_config ∅.
Proof.
  apply (parse_config_ignores_other_keys ∅ "restricted_room"
           (PyList [PyStr "!a"])); discriminate.
Defined.

(** ** Parsing the rule engine's configuration *)

(** X16. [UserRestrictionsModule.parse_config] returns what
    [from_config] returns.  A [TypeError] or [ValueError] of [from_config]
    becomes a [ConfigError] whose message is the fixed prefix followed by
    the text of the error, so the wrapper itself never raises one of the
    two; any other exception of [from_config] (a [KeyError] for a missing
    key) leaves the wrapper as it is. *)
Theorem parse_config_wrapper
    (from_config : gmap string pyval → result UserRestrictionsModuleConfig)
    (str : exn → string) (config : gmap string pyval) :
  (∀ parsed,
     UserRestrictionsModule.parse_config from_config str config = Ok parsed
     ↔ from_config config = Ok parsed)
  ∧ (∀ e,
     UserRestrictionsModule.parse_config from_config str config = Raise e →
     is_TypeError_or_ValueError e = false)
  ∧ (∀ e,
     from_config config = Raise e →
     UserRestrictionsModule.parse_config from_config str config
     = if is_TypeError_or_ValueError e then
         Raise (ConfigError
           ("Failed to parse user restrictions module config: " ++ str e))
       else Raise e).
Proof.
  unfold UserRestrictionsModule.parse_config.
  destruct (from_config config) as [parsed|e]; split_and!.
  - done.
  - done.
  - done.
  - intros parsed. by destruct (is_TypeError_or_ValueError e).
  - intros e'. destruct (is_TypeError_or_ValueError e) eqn:He.
    + by intros [= <-].
    + by intros [= <-].
  - by intros e' [= <-].
Qed.
